(** * Block calculator: date <-> block-height conversions

    Shallow embedding of [src/components/BlockCalculator.tsx].

    The component keeps its data in React state cells and reacts to three
    events: the tip-height fetch, "Calculate Block Height" and
    "Calculate Date & Time".  Each event handler is embedded as a function
    from the component state to the next state together with the effects it
    emitted (toasts, HTTP requests).

    Numbers.  Every number the handlers touch is either an integer or NaN:
    [Date.now()] and [Date.prototype.getTime()] return integral time values
    (or NaN for an invalid date), [parseInt] returns an integer or NaN, and
    the tip height is typed [number | null].  Integers are embedded as [Z].
    The single non-integral intermediate, [timeDiff / AVERAGE_BLOCK_TIME],
    is consumed at once by [Math.round]; the pair is embedded as one
    operation on the exact quotient.  The double-precision quotient rounds
    to the same integer as the exact one while the time difference stays
    below 2^33 block intervals (some 160,000 years): up to there the
    subtraction is exact and the spacing of doubles is finer than the
    distance [1 / (2 * AVERAGE_BLOCK_TIME)] that separates a quotient from
    the nearest half-integer it does not hit.

    The block-to-date arithmetic of lines 96-98 has no such bound built
    in: the typed height is arbitrary, and its product with the block
    interval leaves the range in which doubles hold every integer.  Module
    [Double] therefore rounds every result to binary64, and
    [blockToDate_double] is those lines over it; the integer formula
    [blockToDate] is what they compute inside the range of valid [Date]
    time values. *)

From Stdlib Require Import ZArith String List Bool Lia.
Import ListNotations.
Local Open Scope string_scope.
Local Open Scope Z_scope.

(** ** The fragment of JavaScript the component uses *)

Module JS.

(** A JavaScript number restricted to the values that occur here. *)
Inductive number : Type :=
| Num (z : Z)
| NaN.

(** ToBoolean on a string: only the empty string is falsy. *)
Definition truthy_string (s : string) : bool :=
  match s with
  | EmptyString => false
  | String _ _ => true
  end.

(** ToBoolean on a number: [0] and [NaN] are falsy. *)
Definition truthy_number (n : number) : bool :=
  match n with
  | Num z => negb (z =? 0)
  | NaN => false
  end.

(** ToBoolean on a [number | null] cell: [null] is falsy as well. *)
Definition truthy (v : option number) : bool :=
  match v with
  | Some n => truthy_number n
  | None => false
  end.

(** ToNumber on a [number | null] cell ([null] converts to [0]).  The
    handlers only reach it behind a guard that excludes [null]. *)
Definition to_number (v : option number) : number :=
  match v with
  | Some n => n
  | None => Num 0
  end.

(** [a > b]; any comparison with NaN is false. *)
Definition gt (a b : number) : bool :=
  match a, b with
  | Num x, Num y => x >? y
  | _, _ => false
  end.

Definition add (a b : number) : number :=
  match a, b with
  | Num x, Num y => Num (x + y)
  | _, _ => NaN
  end.

Definition sub (a b : number) : number :=
  match a, b with
  | Num x, Num y => Num (x - y)
  | _, _ => NaN
  end.

Definition mul (a b : number) : number :=
  match a, b with
  | Num x, Num y => Num (x * y)
  | _, _ => NaN
  end.

(** [Math.round(a / b)] on integers, [b <> 0]: the integer nearest to the
    quotient, ties going up, that is [floor (a / b + 1/2)]. *)
Definition round_quot (a b : Z) : Z := (2 * a + b) / (2 * b).

(** [Math.round(a / b)].  Division by zero yields an infinity or NaN in
    JavaScript; infinities are outside [number] and that case is mapped to
    NaN.  The component only divides by a positive constant. *)
Definition Math_round_div (a b : number) : number :=
  match a, b with
  | Num x, Num y => if y =? 0 then NaN else Num (round_quot x y)
  | _, _ => NaN
  end.

(** [Math.max(a, b)]; NaN if either argument is NaN. *)
Definition Math_max (a b : number) : number :=
  match a, b with
  | Num x, Num y => Num (Z.max x y)
  | _, _ => NaN
  end.

End JS.

Import JS.

(** ** Double-precision arithmetic on integers *)

Module Double.

(** A binary64 value that is an integer, an infinity or NaN.  Sums,
    differences and products of integer-valued doubles are integer-valued
    again, so fractions are not needed.  Negative zero is identified with
    zero: none of the operations below tells them apart, and [new Date]
    turns one into the other. *)
Inductive double : Type :=
| Finite (z : Z)
| PosInf
| NegInf
| DNaN.

(** A non-negative integer rounded to 53 significant bits, ties going to
    the even significand. *)
Definition round_even (a : Z) : Z :=
  let e := Z.max 0 (Z.log2 a - 52) in
  let q := a / 2 ^ e in
  let r := a mod 2 ^ e in
  if 2 * r <? 2 ^ e then q * 2 ^ e
  else if 2 ^ e <? 2 * r then (q + 1) * 2 ^ e
  else if Z.even q then q * 2 ^ e
  else (q + 1) * 2 ^ e.

(** The double nearest to an integer; what rounds to [2 ^ 1024] or beyond
    overflows to an infinity. *)
Definition fl (z : Z) : double :=
  let a := round_even (Z.abs z) in
  if 2 ^ 1024 <=? a then (if z <? 0 then NegInf else PosInf)
  else Finite (Z.sgn z * a).

(** The integer is a double as it stands. *)
Definition representable (z : Z) : bool :=
  match fl z with
  | Finite z' => z' =? z
  | _ => false
  end.

Definition dneg (x : double) : double :=
  match x with
  | Finite z => Finite (- z)
  | PosInf => NegInf
  | NegInf => PosInf
  | DNaN => DNaN
  end.

(** [x + y]: the exact sum, rounded. *)
Definition dadd (x y : double) : double :=
  match x, y with
  | Finite a, Finite b => fl (a + b)
  | DNaN, _ | _, DNaN => DNaN
  | PosInf, NegInf | NegInf, PosInf => DNaN
  | PosInf, _ | _, PosInf => PosInf
  | NegInf, _ | _, NegInf => NegInf
  end.

(** [x - y]. *)
Definition dsub (x y : double) : double := dadd x (dneg y).

Definition dsign_neg (x : double) : bool :=
  match x with
  | Finite z => z <? 0
  | NegInf => true
  | _ => false
  end.

(** [x * y]: the exact product, rounded; zero times an infinity is NaN. *)
Definition dmul (x y : double) : double :=
  match x, y with
  | Finite a, Finite b => fl (a * b)
  | DNaN, _ | _, DNaN => DNaN
  | Finite 0, _ | _, Finite 0 => DNaN
  | _, _ => if xorb (dsign_neg x) (dsign_neg y) then NegInf else PosInf
  end.

(** [x < y]; false when either side is NaN. *)
Definition dlt (x y : double) : bool :=
  match x, y with
  | Finite a, Finite b => a <? b
  | DNaN, _ | _, DNaN => false
  | _, NegInf => false
  | PosInf, _ => false
  | _, _ => true
  end.

(** The largest magnitude of a [Date] time value, in milliseconds. *)
Definition MAX_TIME_VALUE : Z := 8640000000000000.

(** TimeClip, applied by [new Date(v)]: a time value out of range makes
    the date invalid, its time value NaN. *)
Definition TimeClip (v : double) : double :=
  match v with
  | Finite z => if Z.abs z <=? MAX_TIME_VALUE then Finite z else DNaN
  | _ => DNaN
  end.

End Double.

Import Double.

(** ** Constants and types of the module *)

Definition AVERAGE_BLOCK_TIME : Z := 10 * 60 * 1000.

Inductive NetworkType : Type :=
| mainnet
| signet.

(** The argument object of [toast]. *)
Record Toast : Type := mkToast {
  title : string;
  description : string;
  variant : string
}.

(** What a handler does to the outside world. *)
Inductive Effect : Type :=
| EToast (t : Toast)
| EFetch (url : string).

(** The [useState] cells of [BlockCalculator]. *)
Record State : Type := mkState {
  network : NetworkType;
  currentBlockHeight : option number;
  loading : bool;
  dateInput : string;
  timeInput : string;
  calculatedBlock : option number;
  blockInput : string;
  calculatedDate : option string
}.

(** The state on first render. *)
Definition initialState : State :=
  {| network := mainnet;
     currentBlockHeight := None;
     loading := false;
     dateInput := "";
     timeInput := "";
     calculatedBlock := None;
     blockInput := "";
     calculatedDate := None |}.

(** State setters. *)

Definition setNetwork (n : NetworkType) (s : State) : State :=
  {| network := n;
     currentBlockHeight := currentBlockHeight s;
     loading := loading s;
     dateInput := dateInput s;
     timeInput := timeInput s;
     calculatedBlock := calculatedBlock s;
     blockInput := blockInput s;
     calculatedDate := calculatedDate s |}.

Definition setCurrentBlockHeight (h : option number) (s : State) : State :=
  {| network := network s;
     currentBlockHeight := h;
     loading := loading s;
     dateInput := dateInput s;
     timeInput := timeInput s;
     calculatedBlock := calculatedBlock s;
     blockInput := blockInput s;
     calculatedDate := calculatedDate s |}.

Definition setLoading (b : bool) (s : State) : State :=
  {| network := network s;
     currentBlockHeight := currentBlockHeight s;
     loading := b;
     dateInput := dateInput s;
     timeInput := timeInput s;
     calculatedBlock := calculatedBlock s;
     blockInput := blockInput s;
     calculatedDate := calculatedDate s |}.

Definition setDateInput (v : string) (s : State) : State :=
  {| network := network s;
     currentBlockHeight := currentBlockHeight s;
     loading := loading s;
     dateInput := v;
     timeInput := timeInput s;
     calculatedBlock := calculatedBlock s;
     blockInput := blockInput s;
     calculatedDate := calculatedDate s |}.

Definition setTimeInput (v : string) (s : State) : State :=
  {| network := network s;
     currentBlockHeight := currentBlockHeight s;
     loading := loading s;
     dateInput := dateInput s;
     timeInput := v;
     calculatedBlock := calculatedBlock s;
     blockInput := blockInput s;
     calculatedDate := calculatedDate s |}.

Definition setCalculatedBlock (v : option number) (s : State) : State :=
  {| network := network s;
     currentBlockHeight := currentBlockHeight s;
     loading := loading s;
     dateInput := dateInput s;
     timeInput := timeInput s;
     calculatedBlock := v;
     blockInput := blockInput s;
     calculatedDate := calculatedDate s |}.

Definition setBlockInput (v : string) (s : State) : State :=
  {| network := network s;
     currentBlockHeight := currentBlockHeight s;
     loading := loading s;
     dateInput := dateInput s;
     timeInput := timeInput s;
     calculatedBlock := calculatedBlock s;
     blockInput := v;
     calculatedDate := calculatedDate s |}.

Definition setCalculatedDate (v : option string) (s : State) : State :=
  {| network := network s;
     currentBlockHeight := currentBlockHeight s;
     loading := loading s;
     dateInput := dateInput s;
     timeInput := timeInput s;
     calculatedBlock := calculatedBlock s;
     blockInput := blockInput s;
     calculatedDate := v |}.

(** ** Handlers as state transformers that log their effects *)

Definition Handler : Type := State -> State * list Effect.

Definition ret : Handler := fun s => (s, []).

Definition update (f : State -> State) : Handler := fun s => (f s, []).

Definition toast (t : Toast) : Handler := fun s => (s, [EToast t]).

Definition request (url : string) : Handler := fun s => (s, [EFetch url]).

Definition seq (h1 h2 : Handler) : Handler :=
  fun s =>
    let '(s1, e1) := h1 s in
    let '(s2, e2) := h2 s1 in
    (s2, (e1 ++ e2)%list).

Notation "h1 ;; h2" := (seq h1 h2) (at level 61, right associativity).

(** The two notifications of the component. *)

Definition missingInputToast (d : string) : Toast :=
  {| title := "Missing input"; description := d; variant := "destructive" |}.

Definition fetchErrorToast : Toast :=
  {| title := "Error";
     description := "Failed to fetch current block height";
     variant := "destructive" |}.

(** ** Tip-height fetch *)

Definition baseUrl (n : NetworkType) : string :=
  match n with
  | mainnet => "https://mempool.space/api"
  | signet => "https://mempool.space/signet/api"
  end.

(** How the two awaited promises of the [try] block settle.  [fetch]
    resolves for every response that arrives, whatever its status; [ok] is
    [response.ok], true for a status from 200 to 299.  [response.json()]
    resolves with whatever the body parses to; the cell that receives it
    is declared [number | null], and the model follows the declaration: the
    body is a number. *)
Inductive FetchOutcome : Type :=
| FetchRejected                 (* [fetch] rejects: transport failure *)
| JsonRejected                  (* [response.json()] rejects: not JSON *)
| Resolved (ok : bool) (height : number).   (* both resolve *)



(** The part of [fetchCurrentBlock] that runs before the first [await]. *)
Definition fetchCurrentBlock_start : Handler :=
  fun s =>
    (update (setLoading true) ;;
     request (baseUrl (network s) ++ "/blocks/tip/height")%string) s.

(** The [try] block after the awaits; [None] stands for a thrown error. *)
Definition fetchCurrentBlock_try (o : FetchOutcome) (s : State)
  : option (State * list Effect) :=
  match o with
  | FetchRejected => None
  | JsonRejected => None
  | Resolved _ height =>
      Some (update (setCurrentBlockHeight (Some height)) s)
  end.

(** The continuation of [fetchCurrentBlock] once the promises settle:
    [try] or else [catch], then [finally]. *)
Definition fetchCurrentBlock_settle (o : FetchOutcome) : Handler :=
  (fun s =>
     match fetchCurrentBlock_try o s with
     | Some r => r
     | None => toast fetchErrorToast s
     end) ;;
  update (setLoading false).

(** One whole invocation with nothing interleaved. *)
Definition fetchCurrentBlock (o : FetchOutcome) : Handler :=
  fetchCurrentBlock_start ;; fetchCurrentBlock_settle o.

(** ** Conversions on integers *)

(** Lines 71-82 of the source on integral arguments: the estimate shown for
    a target time, given the clock and the tip height. *)
Definition dateToBlock (targetTimestamp currentTimestamp currentBlockHeight : Z)
  : Z :=
  if targetTimestamp >? currentTimestamp then
    let timeDiff := targetTimestamp - currentTimestamp in
    let blocksDiff := round_quot timeDiff AVERAGE_BLOCK_TIME in
    currentBlockHeight + blocksDiff
  else
    let timeDiff := currentTimestamp - targetTimestamp in
    let blocksDiff := round_quot timeDiff AVERAGE_BLOCK_TIME in
    let estimatedBlock := currentBlockHeight - blocksDiff in
    Z.max 0 estimatedBlock.

(** Lines 96-98 of the source on integral arguments: the time value handed
    to [new Date].  The arithmetic is exact here; [blockToDate_double]
    below is the same lines with every result rounded to a double, and the
    two agree wherever the time values are valid. *)
Definition blockToDate (targetBlock currentTimestamp currentBlockHeight : Z)
  : Z :=
  let blockDiff := targetBlock - currentBlockHeight in
  let timeDiff := blockDiff * AVERAGE_BLOCK_TIME in
  currentTimestamp + timeDiff.

(** Lines 96-98 of the source in double precision. *)
Definition blockToDate_double
  (targetBlock currentTimestamp currentBlockHeight : double) : double :=
  let blockDiff := dsub targetBlock currentBlockHeight in
  let timeDiff := dmul blockDiff (Finite AVERAGE_BLOCK_TIME) in
  dadd currentTimestamp timeDiff.

(** The time value of [estimatedDate], the [Date] built on line 98. *)
Definition estimatedDate_double
  (targetBlock currentTimestamp currentBlockHeight : double) : double :=
  TimeClip (blockToDate_double targetBlock currentTimestamp currentBlockHeight).

(** ** The two calculate handlers *)

Section Handlers.

(** [new Date(s).getTime()]: the time value of a date-time string, NaN
    when the string is not a date. *)
Variable Date_getTime : string -> number.

(** [parseInt(s)]: an integer, or NaN. *)
Variable parseInt : string -> number.

(** [new Date(v).toLocaleString()]. *)
Variable Date_toLocaleString : number -> string.

(** [Date.now()] as read by the handler. *)
Variable now : Z.

Definition calculateBlockFromDate : Handler :=
  fun s =>
    if negb (truthy_string (dateInput s))
       || negb (truthy_string (timeInput s))
       || negb (truthy (currentBlockHeight s))
    then toast (missingInputToast "Please enter both date and time") s
    else
      let targetTimestamp :=
        Date_getTime (dateInput s ++ "T" ++ timeInput s)%string in
      let currentTimestamp := Num now in
      let height := to_number (currentBlockHeight s) in
      if gt targetTimestamp currentTimestamp then
        let timeDiff := sub targetTimestamp currentTimestamp in
        let blocksDiff := Math_round_div timeDiff (Num AVERAGE_BLOCK_TIME) in
        update (setCalculatedBlock (Some (add height blocksDiff))) s
      else
        let timeDiff := sub currentTimestamp targetTimestamp in
        let blocksDiff := Math_round_div timeDiff (Num AVERAGE_BLOCK_TIME) in
        let estimatedBlock := sub height blocksDiff in
        update (setCalculatedBlock (Some (Math_max (Num 0) estimatedBlock))) s.

Definition calculateDateFromBlock : Handler :=
  fun s =>
    if negb (truthy_string (blockInput s))
       || negb (truthy (currentBlockHeight s))
    then toast (missingInputToast "Please enter a block height") s
    else
      let targetBlock := parseInt (blockInput s) in
      let height := to_number (currentBlockHeight s) in
      let blockDiff := sub targetBlock height in
      let timeDiff := mul blockDiff (Num AVERAGE_BLOCK_TIME) in
      let estimatedDate := add (Num now) timeDiff in
      update (setCalculatedDate (Some (Date_toLocaleString estimatedDate))) s.

End Handlers.

(** ** Observations on a handler's result *)

(** A [MissingInput] notification was raised. *)
Definition raisesMissingInput (r : State * list Effect) : bool :=
  existsb
    (fun e =>
       match e with
       | EToast t => String.eqb (title t) "Missing input"
       | EFetch _ => false
       end)
    (snd r).

(** A [FetchError] notification was raised. *)
Definition raisesFetchError (r : State * list Effect) : bool :=
  existsb
    (fun e =>
       match e with
       | EToast t =>
           String.eqb (title t) "Error"
           && String.eqb (description t) "Failed to fetch current block height"
       | EFetch _ => false
       end)
    (snd r).

(** The date-to-block form holds a computed result. *)
Definition blockComputed (s : State) : bool :=
  match calculatedBlock s with
  | Some _ => true
  | None => false
  end.

(** ** Network switch *)

(** [network === "signet"], the [checked] property of the switch. *)
Definition switchChecked (s : State) : bool :=
  match network s with
  | signet => true
  | mainnet => false
  end.

(** The [onCheckedChange] callback of the switch. *)
Definition onCheckedChange (checked : bool) : Handler :=
  update (setNetwork (if checked then signet else mainnet)).

Definition NetworkType_eqb (a b : NetworkType) : bool :=
  match a, b with
  | mainnet, mainnet => true
  | signet, signet => true
  | _, _ => false
  end.

(** The [useEffect] with dependency list [[network]]: [fetchCurrentBlock]
    starts after the first render ([prev] is [None]) and after every render
    whose [network] differs from the one of the render before. *)
Definition useEffect_network (prev : option NetworkType) : Handler :=
  fun s =>
    match prev with
    | None => fetchCurrentBlock_start s
    | Some p =>
        if NetworkType_eqb p (network s) then ret s
        else fetchCurrentBlock_start s
    end.

(** What happens on mount. *)
Definition mount : Handler := useEffect_network None.

(** The switch reports [checked]: the callback runs, the component renders
    again and the effect compares [network] with its previous value. *)
Definition changeNetwork (checked : bool) : Handler :=
  fun s => (onCheckedChange checked ;; useEffect_network (Some (network s))) s.

(** ** Sample states *)

(** Both date fields filled in, tip height loaded and equal to [0]. *)
Definition tipZeroState : State :=
  setCurrentBlockHeight (Some (Num 0))
    (setTimeInput "12:00" (setDateInput "2030-01-01" initialState)).

(** Tip height loaded from mainnet, nothing typed yet. *)
Definition loadedState : State :=
  setCurrentBlockHeight (Some (Num 800000)) initialState.

(** Both date fields and the block field filled in, tip height loaded. *)
Definition filledState : State :=
  setBlockInput "800010"
    (setTimeInput "12:00" (setDateInput "2030-01-01" loadedState)).

(** * Properties *)

(** ** Rounding *)

Section Rounding.

Variable b : Z.
Hypothesis b_pos : 0 < b.

(** [round_quot a b] is the quotient's floor after adding one half. *)
Lemma round_quot_bounds (a : Z) :
  2 * a - b < 2 * (b * round_quot a b) <= 2 * a + b.
Proof.
  unfold round_quot.
  assert (Hb : 0 < 2 * b) by lia.
  pose proof (Z.div_mod (2 * a + b) (2 * b) ltac:(lia)) as Hdm.
  pose proof (Z.mod_pos_bound (2 * a + b) (2 * b) Hb) as Hr.
  lia.
Qed.

(** It is an integer nearest to [a / b]: off by at most half a [b]. *)
Lemma round_quot_nearest (a : Z) :
  2 * Z.abs (b * round_quot a b - a) <= b.
Proof.
  pose proof (round_quot_bounds a). lia.
Qed.

Lemma round_quot_mono (a1 a2 : Z) :
  a1 <= a2 -> round_quot a1 b <= round_quot a2 b.
Proof.
  intros Hle. unfold round_quot.
  apply Z.div_le_mono; lia.
Qed.

Lemma round_quot_nonneg (a : Z) :
  0 <= a -> 0 <= round_quot a b.
Proof.
  intros Ha. unfold round_quot.
  apply Z.div_pos; lia.
Qed.

Lemma round_quot_0 : round_quot 0 b = 0.
Proof.
  unfold round_quot. apply Z.div_small. lia.
Qed.

(** Exact multiples are left alone. *)
Lemma round_quot_mul (k : Z) : round_quot (k * b) b = k.
Proof.
  pose proof (round_quot_bounds (k * b)) as H.
  nia.
Qed.

End Rounding.

Lemma AVERAGE_BLOCK_TIME_value : AVERAGE_BLOCK_TIME = 600000.
Proof. reflexivity. Qed.

Lemma AVERAGE_BLOCK_TIME_pos : 0 < AVERAGE_BLOCK_TIME.
Proof. reflexivity. Qed.

(** ** The integer conversions, branch by branch *)

Lemma dateToBlock_future (t now h : Z) :
  now < t ->
  dateToBlock t now h = h + round_quot (t - now) AVERAGE_BLOCK_TIME.
Proof.
  intros Hlt. unfold dateToBlock.
  destruct (Z.gtb_spec t now) as [_ | Hle]; [reflexivity | lia].
Qed.

Lemma dateToBlock_past (t now h : Z) :
  t <= now ->
  dateToBlock t now h = Z.max 0 (h - round_quot (now - t) AVERAGE_BLOCK_TIME).
Proof.
  intros Hle. unfold dateToBlock.
  destruct (Z.gtb_spec t now) as [Hgt | _]; [lia | reflexivity].
Qed.

(** The estimate never drops below zero when the tip is not below zero. *)
Lemma dateToBlock_nonneg (t now h : Z) :
  0 <= h -> 0 <= dateToBlock t now h.
Proof.
  intros Hh.
  destruct (Z.lt_ge_cases now t) as [Hlt | Hge].
  - rewrite dateToBlock_future by assumption.
    pose proof (round_quot_nonneg AVERAGE_BLOCK_TIME AVERAGE_BLOCK_TIME_pos
                  (t - now) ltac:(lia)).
    lia.
  - rewrite dateToBlock_past by assumption. lia.
Qed.

(** A past or present target never estimates above the tip. *)
Lemma dateToBlock_past_le_tip (t now h : Z) :
  t <= now -> 0 <= h -> dateToBlock t now h <= h.
Proof.
  intros Hle Hh.
  rewrite dateToBlock_past by assumption.
  pose proof (round_quot_nonneg AVERAGE_BLOCK_TIME AVERAGE_BLOCK_TIME_pos
                (now - t) ltac:(lia)).
  lia.
Qed.

(** A future target never estimates below the tip. *)
Lemma dateToBlock_future_ge_tip (t now h : Z) :
  now < t -> h <= dateToBlock t now h.
Proof.
  intros Hlt.
  rewrite dateToBlock_future by assumption.
  pose proof (round_quot_nonneg AVERAGE_BLOCK_TIME AVERAGE_BLOCK_TIME_pos
                (t - now) ltac:(lia)).
  lia.
Qed.

(** ** The guards of the two handlers *)

Lemma truthy_string_empty (s : string) :
  truthy_string s = false <-> s = "".
Proof.
  destruct s; simpl; split; intros H; congruence.
Qed.

(** The cells the truthiness test lets through: a number other than [0]. *)
Lemma truthy_spec (v : option number) :
  truthy v = true <-> exists h, v = Some (Num h) /\ h <> 0.
Proof.
  split.
  - destruct v as [[h | ] | ]; simpl; intros H; try discriminate.
    exists h. split; [reflexivity | ].
    destruct (Z.eqb_spec h 0); [discriminate | assumption].
  - intros (h & -> & Hh). simpl.
    destruct (Z.eqb_spec h 0); [contradiction | reflexivity].
Qed.

(** The cells it stops: [null], [0] and [NaN]. *)
Lemma truthy_false (v : option number) :
  truthy v = false <-> v = None \/ v = Some (Num 0) \/ v = Some NaN.
Proof.
  split.
  - destruct v as [[h | ] | ]; simpl; intros H; auto.
    destruct (Z.eqb_spec h 0); [subst; auto | discriminate].
  - intros [-> | [-> | ->]]; reflexivity.
Qed.

Section HandlerFacts.

Variable Date_getTime : string -> number.
Variable parseInt : string -> number.
Variable Date_toLocaleString : number -> string.
Variable now : Z.

(** [calculateBlockFromDate] either refuses, leaving the state as it was
    and raising the notification, or stores a result and raises nothing. *)
Lemma calculateBlockFromDate_cases (s : State) :
  let r := calculateBlockFromDate Date_getTime now s in
  (r = (s, [EToast (missingInputToast "Please enter both date and time")])
   /\ (dateInput s = "" \/ timeInput s = ""
       \/ truthy (currentBlockHeight s) = false))
  \/
  ((exists v, r = (setCalculatedBlock (Some v) s, []))
   /\ dateInput s <> "" /\ timeInput s <> ""
   /\ truthy (currentBlockHeight s) = true).
Proof.
  unfold calculateBlockFromDate.
  destruct (truthy_string (dateInput s)) eqn:Hd; simpl.
  2:{ left. split; [reflexivity | left; now apply truthy_string_empty]. }
  destruct (truthy_string (timeInput s)) eqn:Ht; simpl.
  2:{ left. split; [reflexivity | right; left; now apply truthy_string_empty]. }
  destruct (truthy (currentBlockHeight s)) eqn:Hh; simpl.
  2:{ left. split; [reflexivity | right; right; reflexivity]. }
  right. split.
  - destruct (gt _ _); eexists; reflexivity.
  - repeat split.
    + intros E. apply truthy_string_empty in E. congruence.
    + intros E. apply truthy_string_empty in E. congruence.
Qed.

(** When the guard lets the call through and the date parses, the stored
    result is the integer conversion [dateToBlock]. *)
Lemma calculateBlockFromDate_computed (s : State) (t h : Z) :
  dateInput s <> "" ->
  timeInput s <> "" ->
  currentBlockHeight s = Some (Num h) ->
  h <> 0 ->
  Date_getTime (dateInput s ++ "T" ++ timeInput s)%string = Num t ->
  calculateBlockFromDate Date_getTime now s
  = (setCalculatedBlock (Some (Num (dateToBlock t now h))) s, []).
Proof.
  intros Hd Ht Hc Hh Hp.
  unfold calculateBlockFromDate.
  destruct (truthy_string (dateInput s)) eqn:Ed;
    [ | apply truthy_string_empty in Ed; contradiction ].
  destruct (truthy_string (timeInput s)) eqn:Et;
    [ | apply truthy_string_empty in Et; contradiction ].
  assert (Etr : truthy (currentBlockHeight s) = true)
    by (apply truthy_spec; exists h; auto).
  rewrite Etr, Hp, Hc. cbn [negb orb to_number gt sub add].
  unfold dateToBlock, Math_round_div, Math_max.
  assert (Eb : (AVERAGE_BLOCK_TIME =? 0) = false) by reflexivity.
  rewrite Eb.
  destruct (t >? now); reflexivity.
Qed.

(** An unparsable date still produces a stored result, namely NaN. *)
Lemma calculateBlockFromDate_invalid_date (s : State) :
  truthy_string (dateInput s) = true ->
  truthy_string (timeInput s) = true ->
  truthy (currentBlockHeight s) = true ->
  Date_getTime (dateInput s ++ "T" ++ timeInput s)%string = NaN ->
  calculateBlockFromDate Date_getTime now s
  = (setCalculatedBlock (Some NaN) s, []).
Proof.
  intros Hd Ht Hc Hp.
  unfold calculateBlockFromDate.
  rewrite Hd, Ht, Hc, Hp. cbn [negb orb gt sub].
  destruct (to_number (currentBlockHeight s)); reflexivity.
Qed.

Lemma calculateDateFromBlock_cases (s : State) :
  let r := calculateDateFromBlock parseInt Date_toLocaleString now s in
  (r = (s, [EToast (missingInputToast "Please enter a block height")])
   /\ (blockInput s = "" \/ truthy (currentBlockHeight s) = false))
  \/
  ((exists v, r = (setCalculatedDate (Some v) s, []))
   /\ blockInput s <> "" /\ truthy (currentBlockHeight s) = true).
Proof.
  unfold calculateDateFromBlock.
  destruct (truthy_string (blockInput s)) eqn:Hb; simpl.
  2:{ left. split; [reflexivity | left; now apply truthy_string_empty]. }
  destruct (truthy (currentBlockHeight s)) eqn:Hh; simpl.
  2:{ left. split; [reflexivity | right; reflexivity]. }
  right. split; [eexists; reflexivity | ].
  split; [ | reflexivity].
  intros E. apply truthy_string_empty in E. congruence.
Qed.

(** When the guard lets the call through and the height parses, the date
    rendered is the one at [blockToDate]. *)
Lemma calculateDateFromBlock_computed (s : State) (target h : Z) :
  blockInput s <> "" ->
  currentBlockHeight s = Some (Num h) ->
  h <> 0 ->
  parseInt (blockInput s) = Num target ->
  calculateDateFromBlock parseInt Date_toLocaleString now s
  = (setCalculatedDate
       (Some (Date_toLocaleString (Num (blockToDate target now h)))) s, []).
Proof.
  intros Hb Hc Hh Hp.
  unfold calculateDateFromBlock.
  destruct (truthy_string (blockInput s)) eqn:Eb;
    [ | apply truthy_string_empty in Eb; contradiction ].
  assert (Etr : truthy (currentBlockHeight s) = true)
    by (apply truthy_spec; exists h; auto).
  rewrite Etr, Hp, Hc. reflexivity.
Qed.

End HandlerFacts.

(** ** Refusal of a calculation *)

(** A loaded tip height of [0] is stopped by the guard of either handler,
    whatever the other fields hold. *)
Lemma calculateBlockFromDate_zero_tip
  (Date_getTime : string -> number) (now : Z) (s : State) :
  currentBlockHeight s = Some (Num 0) ->
  calculateBlockFromDate Date_getTime now s
  = (s, [EToast (missingInputToast "Please enter both date and time")]).
Proof.
  intros Hc. unfold calculateBlockFromDate. rewrite Hc. simpl.
  rewrite !orb_true_r. reflexivity.
Qed.

Lemma calculateDateFromBlock_zero_tip
  (parseInt : string -> number) (Date_toLocaleString : number -> string)
  (now : Z) (s : State) :
  currentBlockHeight s = Some (Num 0) ->
  calculateDateFromBlock parseInt Date_toLocaleString now s
  = (s, [EToast (missingInputToast "Please enter a block height")]).
Proof.
  intros Hc. unfold calculateDateFromBlock. rewrite Hc. simpl.
  rewrite !orb_true_r. reflexivity.
Qed.

(** C1.  The claim: with both date and time non-blank and a tip height
    present (any non-negative integer, 0 included) the date-to-block
    calculation produces a result, and it is refused with a MissingInput
    notification exactly when an input is blank or the tip height is absent.
    The code at date "2030-01-01", time "12:00" and a present tip height of
    0: the call is refused, the state is left as it was with no computed
    block, and the MissingInput notification is raised. *)
Theorem calculateBlockFromDate_refuses_present_zero_tip :
  forall (Date_getTime : string -> number) (now : Z),
    let r := calculateBlockFromDate Date_getTime now tipZeroState in
    dateInput tipZeroState = "2030-01-01"
    /\ timeInput tipZeroState = "12:00"
    /\ currentBlockHeight tipZeroState = Some (Num 0)
    /\ r = (tipZeroState,
            [EToast (missingInputToast "Please enter both date and time")])
    /\ blockComputed (fst r) = false
    /\ raisesMissingInput r = true.
Proof.
  intros Date_getTime now r. subst r.
  rewrite (calculateBlockFromDate_zero_tip Date_getTime now tipZeroState)
    by reflexivity.
  repeat split.
Qed.

(** ** Tip-height fetch *)




(** A fetch that resolves overwrites the stored tip height, whatever the
    status of the response. *)
Lemma fetchCurrentBlock_resolved (ok : bool) (height : number) (s : State) :
  currentBlockHeight (fst (fetchCurrentBlock (Resolved ok height) s))
  = Some height
  /\ raisesFetchError (fetchCurrentBlock (Resolved ok height) s) = false.
Proof.
  split; reflexivity.
Qed.

(** Either way the loading flag is cleared at the end. *)
Lemma fetchCurrentBlock_clears_loading (o : FetchOutcome) (s : State) :
  loading (fst (fetchCurrentBlock o s)) = false.
Proof.
  destruct o; reflexivity.
Qed.

(** ** Date to block *)

(** C4.  For every non-negative tip height and every clock value, the
    estimate for the present instant is the tip height itself. *)
Theorem dateToBlock_now (now h : Z) :
  0 <= h -> dateToBlock now now h = h.
Proof.
  intros Hh.
  rewrite dateToBlock_past by lia.
  rewrite Z.sub_diag, (round_quot_0 _ AVERAGE_BLOCK_TIME_pos).
  lia.
Qed.

Lemma dateToBlock_now_witness :
  0 <= 800000 /\ dateToBlock 1700000000000 1700000000000 800000 = 800000.
Proof.
  split; [lia | apply (dateToBlock_now 1700000000000 800000); lia].
Defined.

(** C7.  For every future target and every non-negative tip height the
    estimate is the tip height plus the rounded number of block intervals
    ahead, and it is at least the tip height. *)
Theorem dateToBlock_future_estimate (t now h : Z) :
  t > now ->
  0 <= h ->
  dateToBlock t now h = h + round_quot (t - now) 600000
  /\ h <= dateToBlock t now h.
Proof.
  intros Hgt Hh. split.
  - rewrite dateToBlock_future by lia. reflexivity.
  - apply dateToBlock_future_ge_tip. lia.
Qed.

Lemma dateToBlock_future_estimate_witness :
  1700000900000 > 1700000000000
  /\ 0 <= 800000
  /\ dateToBlock 1700000900000 1700000000000 800000
     = 800000 + round_quot (1700000900000 - 1700000000000) 600000
  /\ 800000 <= dateToBlock 1700000900000 1700000000000 800000.
Proof.
  split; [lia | split; [lia | ]].
  apply (dateToBlock_future_estimate 1700000900000 1700000000000 800000); lia.
Defined.

(** C3.  For every past target far enough back that the unclamped estimate
    [tipHeight - round((now - target) / BlockInterval)] is negative, the
    estimate is exactly 0. *)
Theorem dateToBlock_clamped (t now h : Z) :
  t < now ->
  h - round_quot (now - t) 600000 < 0 ->
  dateToBlock t now h = 0.
Proof.
  intros Hlt Hneg.
  rewrite dateToBlock_past by lia.
  rewrite AVERAGE_BLOCK_TIME_value. lia.
Qed.

Lemma dateToBlock_clamped_witness :
  0 < 1700000000000
  /\ 800000 - round_quot (1700000000000 - 0) 600000 < 0
  /\ dateToBlock 0 1700000000000 800000 = 0.
Proof.
  split; [lia | split; [reflexivity | ]].
  apply (dateToBlock_clamped 0 1700000000000 800000); [lia | reflexivity].
Defined.

(** C9.  With a tip height of 800000 and any clock value T, a target
    6,000,000 ms ahead of T is estimated at block 800010. *)
Theorem dateToBlock_ten_blocks_ahead (T : Z) :
  dateToBlock (T + 6000000) T 800000 = 800010.
Proof.
  rewrite dateToBlock_future by lia.
  replace (T + 6000000 - T) with (10 * AVERAGE_BLOCK_TIME)
    by (rewrite AVERAGE_BLOCK_TIME_value; lia).
  rewrite (round_quot_mul _ AVERAGE_BLOCK_TIME_pos).
  reflexivity.
Qed.

(** C10.  For a fixed clock value and a non-negative tip height the
    estimate never decreases as the target moves later, also when the two
    targets lie on opposite sides of the present instant. *)
Theorem dateToBlock_monotone (now h t1 t2 : Z) :
  0 <= h ->
  t1 <= t2 ->
  dateToBlock t1 now h <= dateToBlock t2 now h.
Proof.
  intros Hh Hle.
  destruct (Z.lt_ge_cases now t1) as [H1 | H1];
    destruct (Z.lt_ge_cases now t2) as [H2 | H2]; try lia.
  - (* both in the future *)
    rewrite !dateToBlock_future by assumption.
    pose proof (round_quot_mono _ AVERAGE_BLOCK_TIME_pos
                  (t1 - now) (t2 - now) ltac:(lia)).
    lia.
  - (* across the boundary *)
    pose proof (dateToBlock_past_le_tip t1 now h ltac:(lia) Hh).
    pose proof (dateToBlock_future_ge_tip t2 now h H2).
    lia.
  - (* both past or present *)
    rewrite !dateToBlock_past by lia.
    pose proof (round_quot_mono _ AVERAGE_BLOCK_TIME_pos
                  (now - t2) (now - t1) ltac:(lia)).
    lia.
Qed.

Lemma dateToBlock_monotone_witness :
  0 <= 800000
  /\ 1699999700000 <= 1700000300001
  /\ dateToBlock 1699999700000 1700000000000 800000
     <= dateToBlock 1700000300001 1700000000000 800000.
Proof.
  split; [lia | split; [lia | ]].
  apply (dateToBlock_monotone 1700000000000 800000); lia.
Defined.

(** ** Block to date *)

(** The integer formula in closed form. *)
Lemma blockToDate_linear (targetBlock now h : Z) :
  blockToDate targetBlock now h = now + (targetBlock - h) * 600000.
Proof.
  unfold blockToDate. rewrite AVERAGE_BLOCK_TIME_value. reflexivity.
Qed.

(** C5.  A target height equal to the tip height is dated at the present
    instant. *)
Theorem blockToDate_tip (now h : Z) :
  blockToDate h now h = now.
Proof.
  unfold blockToDate. rewrite Z.sub_diag. lia.
Qed.

(** Ten blocks back from the tip is 6,000,000 ms ago. *)
Lemma blockToDate_ten_blocks_back (now : Z) :
  blockToDate 799990 now 800000 = now - 6000000.
Proof.
  unfold blockToDate. rewrite AVERAGE_BLOCK_TIME_value. lia.
Qed.

(** The time value is not clamped: every integer multiple of the interval
    away from the clock, in either direction, is reached. *)
Lemma blockToDate_reaches (now h k : Z) :
  blockToDate (h + k) now h = now + k * AVERAGE_BLOCK_TIME.
Proof.
  unfold blockToDate. f_equal. f_equal. lia.
Qed.

(** ** Block to date in double precision *)

(** An integer with at most 53 significant bits, scaled by a power of two,
    survives rounding. *)
Lemma round_even_scaled (m n : Z) :
  0 <= m < 2 ^ 53 ->
  0 <= n ->
  round_even (m * 2 ^ n) = m * 2 ^ n.
Proof.
  intros [Hm0 Hm] Hn.
  destruct (Z.eq_dec m 0) as [-> | Hnz]; [reflexivity | ].
  unfold round_even.
  rewrite Z.log2_mul_pow2 by lia.
  assert (Hlog : Z.log2 m < 53) by (apply Z.log2_lt_pow2; lia).
  pose proof (Z.log2_nonneg m) as Hlog0.
  set (e := Z.max 0 (n + Z.log2 m - 52)).
  assert (He : 0 <= e <= n) by (unfold e; lia).
  assert (Hpos : 0 < 2 ^ e) by (apply Z.pow_pos_nonneg; lia).
  assert (Hsplit : m * 2 ^ n = m * 2 ^ (n - e) * 2 ^ e).
  { rewrite <- Z.mul_assoc, <- Z.pow_add_r by lia.
    do 2 f_equal. lia. }
  rewrite Hsplit. cbv zeta.
  rewrite Z.mod_mul, Z.div_mul by lia.
  destruct (Z.ltb_spec (2 * 0) (2 ^ e)) as [_ | Hge]; [reflexivity | lia].
Qed.

Lemma pow2_1024_large : 2 ^ 64 < 2 ^ 1024.
Proof. reflexivity. Qed.

(** The same for signed integers below the overflow threshold. *)
Lemma fl_scaled (m n : Z) :
  Z.abs m < 2 ^ 53 ->
  0 <= n ->
  Z.abs m * 2 ^ n < 2 ^ 1024 ->
  fl (m * 2 ^ n) = Finite (m * 2 ^ n).
Proof.
  intros Hm Hn Hbig.
  assert (Hpos : 0 < 2 ^ n) by (apply Z.pow_pos_nonneg; lia).
  unfold fl.
  rewrite Z.abs_mul, (Z.abs_eq (2 ^ n)) by lia.
  rewrite round_even_scaled by lia.
  destruct (Z.leb_spec (2 ^ 1024) (Z.abs m * 2 ^ n)) as [Hge | _]; [lia | ].
  f_equal.
  rewrite <- (Z.abs_eq (2 ^ n)) at 2 by lia.
  rewrite <- Z.abs_mul.
  destruct (m * 2 ^ n); reflexivity.
Qed.

(** Every integer of magnitude at most [2 ^ 53] is a double. *)
Lemma fl_safe (z : Z) :
  Z.abs z <= 2 ^ 53 -> fl z = Finite z.
Proof.
  intros Hz.
  pose proof pow2_1024_large as Hlarge.
  assert (H53 : 2 ^ 53 = 9007199254740992) by reflexivity.
  assert (H64 : 2 ^ 64 = 18446744073709551616) by reflexivity.
  destruct (Z.eq_dec (Z.abs z) (2 ^ 53)) as [Heq | Hne].
  - assert (Hz' : z = 2 ^ 52 * 2 ^ 1 \/ z = - 2 ^ 52 * 2 ^ 1).
    { change (2 ^ 52 * 2 ^ 1) with 9007199254740992.
      change (- 2 ^ 52 * 2 ^ 1) with (- 9007199254740992). lia. }
    destruct Hz' as [-> | ->]; reflexivity.
  - replace z with (z * 2 ^ 0) by (change (2 ^ 0) with 1; lia).
    apply fl_scaled; change (2 ^ 0) with 1; lia.
Qed.

(** On finite operands the operations are the exact ones, rounded. *)
Lemma dsub_finite (a b : Z) : dsub (Finite a) (Finite b) = fl (a - b).
Proof.
  reflexivity.
Qed.

Lemma dmul_finite (a b : Z) : dmul (Finite a) (Finite b) = fl (a * b).
Proof.
  destruct a, b; reflexivity.
Qed.

Lemma dadd_finite (a b : Z) : dadd (Finite a) (Finite b) = fl (a + b).
Proof. reflexivity. Qed.

(** Inside the range of valid time values the double-precision lines
    compute the integer formula, with nothing lost to rounding. *)
Lemma blockToDate_double_in_range (targetBlock now h : Z) :
  Z.abs now <= MAX_TIME_VALUE ->
  Z.abs (blockToDate targetBlock now h) <= MAX_TIME_VALUE ->
  blockToDate_double (Finite targetBlock) (Finite now) (Finite h)
  = Finite (blockToDate targetBlock now h).
Proof.
  unfold blockToDate, MAX_TIME_VALUE. rewrite AVERAGE_BLOCK_TIME_value.
  intros Hnow Hres.
  pose proof pow2_1024_large as Hlarge.
  assert (H53 : 2 ^ 53 = 9007199254740992) by reflexivity.
  assert (H64 : 2 ^ 64 = 18446744073709551616) by reflexivity.
  assert (H6 : 2 ^ 6 = 64) by reflexivity.
  assert (Hdiff : Z.abs (targetBlock - h) <= 28800000000) by lia.
  assert (Hmul : fl ((targetBlock - h) * 600000)
                 = Finite ((targetBlock - h) * 600000)).
  { replace ((targetBlock - h) * 600000)
      with ((targetBlock - h) * 9375 * 2 ^ 6) by lia.
    apply fl_scaled; lia. }
  unfold blockToDate_double. cbv zeta.
  rewrite AVERAGE_BLOCK_TIME_value.
  rewrite dsub_finite, (fl_safe (targetBlock - h)) by lia.
  rewrite dmul_finite, Hmul, dadd_finite.
  apply fl_safe. lia.
Qed.

(** C6, as the claim states it, fails: for the typed height
    9007199254740992 with the clock at 1700000000000 and a tip height of
    800000, lines 96-98 yield 5404319554064594501632, not
    5404319554064595200000. *)
Lemma blockToDate_double_counterexample :
  ~ (forall targetHeight now h : Z,
        blockToDate_double (fl targetHeight) (fl now) (fl h)
        = Finite (now + (targetHeight - h) * 600000)).
Proof.
  intros H.
  specialize (H 9007199254740992 1700000000000 800000).
  assert (E : blockToDate_double (fl 9007199254740992) (fl 1700000000000)
                (fl 800000)
              = Finite 5404319554064594501632) by (vm_compute; reflexivity).
  rewrite E in H. discriminate H.
Qed.

(** C6, amended.  For every target height and tip height that are doubles
    as they stand (the target may lie below the tip; nothing compares the
    two) and every clock value, such that the clock value and
    [now + (target - tip) * 600000] are valid time values (of magnitude at
    most 8,640,000,000,000,000 ms), lines 96-98 return exactly
    [now + (target - tip) * 600000], and the [Date] built from it carries
    that time value unchanged. *)
Theorem blockToDate_double_exact (targetHeight now h : Z) :
  representable targetHeight = true ->
  representable h = true ->
  Z.abs now <= 8640000000000000 ->
  Z.abs (now + (targetHeight - h) * 600000) <= 8640000000000000 ->
  blockToDate_double (Finite targetHeight) (Finite now) (Finite h)
  = Finite (now + (targetHeight - h) * 600000)
  /\ estimatedDate_double (Finite targetHeight) (Finite now) (Finite h)
     = Finite (now + (targetHeight - h) * 600000).
Proof.
  intros _ _ Hnow Hres.
  rewrite <- blockToDate_linear in *.
  unfold estimatedDate_double.
  rewrite blockToDate_double_in_range by assumption.
  split; [reflexivity | ].
  unfold TimeClip.
  destruct (Z.leb_spec (Z.abs (blockToDate targetHeight now h))
              MAX_TIME_VALUE) as [_ | Hgt]; [reflexivity | ].
  unfold MAX_TIME_VALUE in Hgt. lia.
Qed.

Lemma blockToDate_double_exact_witness :
  representable 799990 = true
  /\ representable 800000 = true
  /\ Z.abs 1700000000000 <= 8640000000000000
  /\ Z.abs (1700000000000 + (799990 - 800000) * 600000) <= 8640000000000000
  /\ estimatedDate_double (Finite 799990) (Finite 1700000000000)
       (Finite 800000)
     = Finite (1700000000000 + (799990 - 800000) * 600000).
Proof.
  split; [reflexivity | split; [reflexivity | ]].
  split; [lia | split; [lia | ]].
  apply (blockToDate_double_exact 799990 1700000000000 800000);
    [reflexivity | reflexivity | lia | lia].
Defined.

(** Past the range the date is invalid: a target height of
    9007199254740992 at that clock and tip renders as an invalid date. *)
Lemma estimatedDate_double_out_of_range :
  estimatedDate_double (fl 9007199254740992) (fl 1700000000000) (fl 800000)
  = DNaN.
Proof. vm_compute. reflexivity. Qed.

(** ** Round trip *)

(** Where [dateToBlock] does not clamp, going to a height and back lands
    within half an interval of the target. *)
Lemma round_trip_half_interval (t now h : Z) :
  now < t \/ 0 <= h - round_quot (now - t) AVERAGE_BLOCK_TIME ->
  2 * Z.abs (blockToDate (dateToBlock t now h) now h - t)
  <= AVERAGE_BLOCK_TIME.
Proof.
  intros Hcase. unfold blockToDate.
  destruct (Z.lt_ge_cases now t) as [Hlt | Hge].
  - rewrite dateToBlock_future by assumption.
    pose proof (round_quot_nearest _ AVERAGE_BLOCK_TIME_pos (t - now)).
    lia.
  - destruct Hcase as [Hlt | Hnn]; [lia | ].
    rewrite dateToBlock_past by assumption.
    rewrite Z.max_r by assumption.
    pose proof (round_quot_nearest _ AVERAGE_BLOCK_TIME_pos (now - t)).
    lia.
Qed.

(** C2, as the claim states it, fails: the target 0 (1970) with the clock
    at 1700000000000 and a tip height of 800000 is clamped to block 0, and
    block 0 is dated at 1220000000000. *)
Lemma round_trip_counterexample :
  ~ (forall t now h : Z,
        0 <= h ->
        Z.abs (blockToDate (dateToBlock t now h) now h - t) <= 600000).
Proof.
  intros H.
  specialize (H 0 1700000000000 800000 ltac:(lia)).
  assert (E : blockToDate (dateToBlock 0 1700000000000 800000)
                1700000000000 800000 = 1220000000000) by reflexivity.
  rewrite E in H. lia.
Qed.

(** C2, amended.  For every target, clock value and non-negative tip
    height such that the estimate is not clamped (the target is in the
    future, or [tipHeight - round((now - target) / BlockInterval)] is not
    negative), converting the target to a height and the height back to a
    time value lands within one block interval (600,000 ms) of the
    target. *)
Theorem round_trip_unclamped (t now h : Z) :
  0 <= h ->
  now < t \/ 0 <= h - round_quot (now - t) 600000 ->
  Z.abs (blockToDate (dateToBlock t now h) now h - t) <= 600000.
Proof.
  intros _ Hcase.
  pose proof (round_trip_half_interval t now h) as Hhalf.
  rewrite AVERAGE_BLOCK_TIME_value in Hhalf.
  specialize (Hhalf Hcase). lia.
Qed.

Lemma round_trip_unclamped_witness :
  0 <= 800000
  /\ (1700000000000 < 1700000000000
      \/ 0 <= 800000 - round_quot (1700000000000 - 1699999100001) 600000)
  /\ Z.abs (blockToDate (dateToBlock 1699999100001 1700000000000 800000)
              1700000000000 800000 - 1699999100001) <= 600000.
Proof.
  split; [lia | split; [right; vm_compute; discriminate | ]].
  apply (round_trip_unclamped 1699999100001 1700000000000 800000).
  - lia.
  - right. vm_compute. discriminate.
Defined.

(** * Further properties *)

(** ** More on rounding *)

(** A whole number of intervals more in the dividend is that many more in
    the rounded quotient. *)
Lemma round_quot_add_mul (a b k : Z) :
  0 < b -> round_quot (a + k * b) b = round_quot a b + k.
Proof.
  intros Hb. unfold round_quot.
  replace (2 * (a + k * b) + b) with (2 * a + b + k * (2 * b)) by lia.
  apply Z.div_add. lia.
Qed.

(** A non-negative dividend rounds to zero exactly below half the divisor:
    the tie goes up. *)
Lemma round_quot_zero_iff (a b : Z) :
  0 < b -> 0 <= a -> (round_quot a b = 0 <-> 2 * a < b).
Proof.
  intros Hb Ha.
  pose proof (round_quot_bounds b Hb a) as Hq.
  split.
  - intros E. rewrite E in Hq. lia.
  - intros Hlt. nia.
Qed.

(** ** More on the integer conversions *)



(** X2.  The estimate depends on the target and the clock only through
    their difference: moving both by the same amount changes nothing. *)
Theorem dateToBlock_shift (t now h d : Z) :
  dateToBlock (t + d) (now + d) h = dateToBlock t now h.
Proof.
  destruct (Z.lt_ge_cases now t) as [Hlt | Hge].
  - rewrite !dateToBlock_future by lia.
    do 2 f_equal. lia.
  - rewrite !dateToBlock_past by lia.
    do 3 f_equal. lia.
Qed.

(** X3.  For a future target, every further whole block interval
    (600,000 ms) adds exactly one block to the estimate. *)
Theorem dateToBlock_future_step (t now h k : Z) :
  now < t ->
  0 <= k ->
  dateToBlock (t + k * 600000) now h = dateToBlock t now h + k.
Proof.
  intros Hlt Hk.
  rewrite !dateToBlock_future by lia.
  replace (t + k * 600000 - now) with (t - now + k * AVERAGE_BLOCK_TIME)
    by (rewrite AVERAGE_BLOCK_TIME_value; lia).
  rewrite (round_quot_add_mul _ _ _ AVERAGE_BLOCK_TIME_pos). lia.
Qed.

Lemma dateToBlock_future_step_witness :
  1700000000000 < 1700000250000
  /\ 0 <= 3
  /\ dateToBlock (1700000250000 + 3 * 600000) 1700000000000 800000
     = dateToBlock 1700000250000 1700000000000 800000 + 3.
Proof.
  split; [lia | split; [lia | ]].
  apply (dateToBlock_future_step 1700000250000 1700000000000 800000 3); lia.
Defined.

(** X4.  With a tip height of at least 1, the estimate is the tip height
    itself exactly for targets strictly less than half an interval
    (300,000 ms) away from the clock; a target exactly half an interval
    away, on either side, is already one block off. *)
Theorem dateToBlock_eq_tip_iff (t now h : Z) :
  1 <= h ->
  (dateToBlock t now h = h <-> now - 300000 < t < now + 300000).
Proof.
  intros Hh.
  destruct (Z.lt_ge_cases now t) as [Hlt | Hge].
  - rewrite dateToBlock_future by assumption.
    pose proof (round_quot_zero_iff (t - now) AVERAGE_BLOCK_TIME
                  AVERAGE_BLOCK_TIME_pos ltac:(lia)) as Hz.
    rewrite AVERAGE_BLOCK_TIME_value in *.
    split; intros H.
    + assert (E : round_quot (t - now) 600000 = 0) by lia.
      apply Hz in E. lia.
    + assert (E : round_quot (t - now) 600000 = 0) by (apply Hz; lia).
      lia.
  - rewrite dateToBlock_past by assumption.
    pose proof (round_quot_zero_iff (now - t) AVERAGE_BLOCK_TIME
                  AVERAGE_BLOCK_TIME_pos ltac:(lia)) as Hz.
    pose proof (round_quot_nonneg AVERAGE_BLOCK_TIME AVERAGE_BLOCK_TIME_pos
                  (now - t) ltac:(lia)) as Hnn.
    rewrite AVERAGE_BLOCK_TIME_value in *.
    split; intros H.
    + assert (E : round_quot (now - t) 600000 = 0) by lia.
      apply Hz in E. lia.
    + assert (E : round_quot (now - t) 600000 = 0) by (apply Hz; lia).
      lia.
Qed.

Lemma dateToBlock_eq_tip_iff_witness :
  1 <= 800000
  /\ (dateToBlock 1700000299999 1700000000000 800000 = 800000
      <-> 1700000000000 - 300000 < 1700000299999 < 1700000000000 + 300000).
Proof.
  split; [lia | ].
  apply (dateToBlock_eq_tip_iff 1700000299999 1700000000000 800000). lia.
Defined.

(** X5.  With a non-negative tip height the estimate is never negative,
    wherever the target lies. *)
Theorem dateToBlock_never_negative (t now h : Z) :
  0 <= h -> 0 <= dateToBlock t now h.
Proof.
  intros Hh.
  destruct (Z.lt_ge_cases now t) as [Hlt | Hge].
  - pose proof (dateToBlock_future_ge_tip t now h Hlt). lia.
  - rewrite dateToBlock_past by assumption. lia.
Qed.

Lemma dateToBlock_never_negative_witness :
  0 <= 800000 /\ 0 <= dateToBlock 0 1700000000000 800000.
Proof.
  split; [lia | ].
  apply (dateToBlock_never_negative 0 1700000000000 800000). lia.
Defined.

(** X6.  Among target heights whose estimated time values are valid
    dates (the clock value and both estimates of magnitude at most
    8,640,000,000,000,000 ms), the time value computed by lines 96-98 is
    strictly increasing in the target height: a higher block is always
    dated later, a lower one earlier. *)
Theorem blockToDate_double_strictly_monotone (b1 b2 now h : Z) :
  Z.abs now <= 8640000000000000 ->
  Z.abs (now + (b1 - h) * 600000) <= 8640000000000000 ->
  Z.abs (now + (b2 - h) * 600000) <= 8640000000000000 ->
  (dlt (blockToDate_double (Finite b1) (Finite now) (Finite h))
       (blockToDate_double (Finite b2) (Finite now) (Finite h)) = true
   <-> b1 < b2).
Proof.
  intros Hnow H1 H2.
  rewrite <- blockToDate_linear in H1, H2.
  rewrite !blockToDate_double_in_range by assumption.
  rewrite !blockToDate_linear. cbn [dlt].
  rewrite Z.ltb_lt. lia.
Qed.

Lemma blockToDate_double_strictly_monotone_witness :
  Z.abs 1700000000000 <= 8640000000000000
  /\ Z.abs (1700000000000 + (799990 - 800000) * 600000) <= 8640000000000000
  /\ Z.abs (1700000000000 + (800010 - 800000) * 600000) <= 8640000000000000
  /\ (dlt (blockToDate_double (Finite 799990) (Finite 1700000000000)
             (Finite 800000))
          (blockToDate_double (Finite 800010) (Finite 1700000000000)
             (Finite 800000)) = true
      <-> 799990 < 800010).
Proof.
  split; [lia | split; [lia | split; [lia | ]]].
  apply (blockToDate_double_strictly_monotone
           799990 800010 1700000000000 800000); lia.
Defined.

(** ** More on the calculate handlers *)

Section MoreHandlerFacts.

Variable Date_getTime : string -> number.
Variable parseInt : string -> number.
Variable Date_toLocaleString : number -> string.
Variable now : Z.

(** X7.  While the tip-height cell does not hold 0,
    [calculateBlockFromDate] refuses (raises the "Missing input" toast and
    leaves every state cell as it was) exactly when the date is blank, the
    time is blank, or the tip-height cell holds null or NaN. *)
Theorem calculateBlockFromDate_refused_iff (s : State) :
  currentBlockHeight s <> Some (Num 0) ->
  (calculateBlockFromDate Date_getTime now s
   = (s, [EToast (missingInputToast "Please enter both date and time")])
   <->
   (dateInput s = "" \/ timeInput s = ""
    \/ currentBlockHeight s = None
    \/ currentBlockHeight s = Some NaN)).
Proof.
  intros Hz.
  pose proof (calculateBlockFromDate_cases Date_getTime now s) as Hc.
  cbv zeta in Hc.
  rewrite truthy_false in Hc.
  destruct Hc as [[Hr Hcond] | [[v Hr] (Hd & Ht & Hh)]].
  - split; [intros _ | intros _; exact Hr].
    tauto.
  - split.
    + rewrite Hr. intros E. inversion E.
    + apply truthy_spec in Hh. destruct Hh as (h & Eh & Hnz).
      rewrite Eh.
      intros [E | [E | [E | E]]]; try contradiction; discriminate.
Qed.

(** X8.  While the tip-height cell does not hold 0,
    [calculateDateFromBlock] refuses (raises the "Missing input" toast and
    leaves every state cell as it was) exactly when the block field is
    blank or the tip-height cell holds null or NaN. *)
Theorem calculateDateFromBlock_refused_iff (s : State) :
  currentBlockHeight s <> Some (Num 0) ->
  (calculateDateFromBlock parseInt Date_toLocaleString now s
   = (s, [EToast (missingInputToast "Please enter a block height")])
   <->
   (blockInput s = ""
    \/ currentBlockHeight s = None
    \/ currentBlockHeight s = Some NaN)).
Proof.
  intros Hz.
  pose proof (calculateDateFromBlock_cases
                parseInt Date_toLocaleString now s) as Hc.
  cbv zeta in Hc.
  rewrite truthy_false in Hc.
  destruct Hc as [[Hr Hcond] | [[v Hr] (Hb & Hh)]].
  - split; [intros _ | intros _; exact Hr].
    tauto.
  - split.
    + rewrite Hr. intros E. inversion E.
    + apply truthy_spec in Hh. destruct Hh as (h & Eh & Hnz).
      rewrite Eh.
      intros [E | [E | E]]; try contradiction; discriminate.
Qed.

(** X9.  When both fields are filled in and the tip height is a non-zero
    integer, [calculateBlockFromDate] raises nothing and changes only the
    result cell: it stores the estimate [dateToBlock] of the parsed target
    time, or NaN when the date and time do not parse. *)
Theorem calculateBlockFromDate_accepted (s : State) (h : Z) :
  dateInput s <> "" ->
  timeInput s <> "" ->
  currentBlockHeight s = Some (Num h) ->
  h <> 0 ->
  calculateBlockFromDate Date_getTime now s
  = (setCalculatedBlock
       (Some
          match Date_getTime (dateInput s ++ "T" ++ timeInput s)%string with
          | Num t => Num (dateToBlock t now h)
          | NaN => NaN
          end) s,
     []).
Proof.
  intros Hd Ht Hc Hh.
  destruct (Date_getTime (dateInput s ++ "T" ++ timeInput s)%string)
    as [t | ] eqn:Hp.
  - now apply calculateBlockFromDate_computed.
  - apply calculateBlockFromDate_invalid_date; try assumption.
    + destruct (truthy_string (dateInput s)) eqn:E; [reflexivity | ].
      apply truthy_string_empty in E. contradiction.
    + destruct (truthy_string (timeInput s)) eqn:E; [reflexivity | ].
      apply truthy_string_empty in E. contradiction.
    + apply truthy_spec. exists h. auto.
Qed.

(** X10.  When the block field is filled in and the tip height is a
    non-zero integer, [calculateDateFromBlock] raises nothing and changes
    only the result cell: it stores the rendering of the time value
    [blockToDate] of the parsed height, or the rendering of NaN when the
    field does not parse. *)
Theorem calculateDateFromBlock_accepted (s : State) (h : Z) :
  blockInput s <> "" ->
  currentBlockHeight s = Some (Num h) ->
  h <> 0 ->
  calculateDateFromBlock parseInt Date_toLocaleString now s
  = (setCalculatedDate
       (Some
          (Date_toLocaleString
             match parseInt (blockInput s) with
             | Num target => Num (blockToDate target now h)
             | NaN => NaN
             end)) s,
     []).
Proof.
  intros Hb Hc Hh.
  destruct (parseInt (blockInput s)) as [target | ] eqn:Hp.
  - rewrite (calculateDateFromBlock_computed
               parseInt Date_toLocaleString now s target h) by assumption.
    reflexivity.
  - unfold calculateDateFromBlock.
    destruct (truthy_string (blockInput s)) eqn:Eb;
      [ | apply truthy_string_empty in Eb; contradiction ].
    assert (Etr : truthy (currentBlockHeight s) = true)
      by (apply truthy_spec; exists h; auto).
    rewrite Etr, Hp, Hc. reflexivity.
Qed.

(** X11.  With a positive tip height and a date that parses, the height
    stored by an accepted [calculateBlockFromDate] is an integer that is
    not negative. *)
Theorem calculateBlockFromDate_stores_nonneg (s : State) (h t : Z) :
  dateInput s <> "" ->
  timeInput s <> "" ->
  currentBlockHeight s = Some (Num h) ->
  0 < h ->
  Date_getTime (dateInput s ++ "T" ++ timeInput s)%string = Num t ->
  exists z,
    calculatedBlock (fst (calculateBlockFromDate Date_getTime now s))
    = Some (Num z)
    /\ 0 <= z.
Proof.
  intros Hd Ht Hc Hh Hp.
  rewrite (calculateBlockFromDate_computed Date_getTime now s t h)
    by (try assumption; lia).
  exists (dateToBlock t now h). split; [reflexivity | ].
  apply dateToBlock_nonneg. lia.
Qed.

(** X12.  The two forms do not interfere: running the two calculations in
    either order leaves the same state. *)
Theorem calculate_handlers_commute (s : State) :
  fst (calculateDateFromBlock parseInt Date_toLocaleString now
         (fst (calculateBlockFromDate Date_getTime now s)))
  = fst (calculateBlockFromDate Date_getTime now
           (fst (calculateDateFromBlock parseInt Date_toLocaleString now s))).
Proof.
  destruct s as [n c l d t cb b cd].
  unfold calculateBlockFromDate, calculateDateFromBlock, update, toast.
  cbn [dateInput timeInput blockInput currentBlockHeight fst].
  destruct (truthy_string d) eqn:Ed, (truthy_string t) eqn:Et,
    (truthy_string b) eqn:Eb, (truthy c) eqn:Ec,
    (gt (Date_getTime (d ++ "T" ++ t)%string) (Num now)) eqn:Eg;
    repeat (cbn [fst negb orb dateInput timeInput blockInput
                 currentBlockHeight setCalculatedBlock setCalculatedDate];
            rewrite ?Ed, ?Et, ?Eb, ?Ec, ?Eg);
    reflexivity.
Qed.

End MoreHandlerFacts.

Lemma calculateBlockFromDate_accepted_witness :
  dateInput filledState <> ""
  /\ timeInput filledState <> ""
  /\ currentBlockHeight filledState = Some (Num 800000)
  /\ 800000 <> 0
  /\ calculateBlockFromDate (fun _ => Num 1893499200000) 1700000000000
       filledState
     = (setCalculatedBlock (Some (Num 1122499)) filledState, []).
Proof.
  split; [discriminate | split; [discriminate | ]].
  split; [reflexivity | split; [lia | ]].
  apply (calculateBlockFromDate_accepted
           (fun _ => Num 1893499200000) 1700000000000 filledState 800000);
    [discriminate | discriminate | reflexivity | lia].
Defined.

Lemma calculateDateFromBlock_accepted_witness :
  blockInput filledState <> ""
  /\ currentBlockHeight filledState = Some (Num 800000)
  /\ 800000 <> 0
  /\ calculateDateFromBlock
       (fun _ => Num 800010)
       (fun v => match v with
                 | Num 1700006000000 => "11/14/2023, 11:53:20 PM"
                 | _ => "Invalid Date"
                 end)
       1700000000000 filledState
     = (setCalculatedDate (Some "11/14/2023, 11:53:20 PM") filledState, []).
Proof.
  split; [discriminate | split; [reflexivity | split; [lia | ]]].
  apply (calculateDateFromBlock_accepted
           (fun _ => Num 800010)
           (fun v => match v with
                     | Num 1700006000000 => "11/14/2023, 11:53:20 PM"
                     | _ => "Invalid Date"
                     end)
           1700000000000 filledState 800000);
    [discriminate | reflexivity | lia].
Defined.

Lemma calculateBlockFromDate_stores_nonneg_witness :
  dateInput filledState <> ""
  /\ timeInput filledState <> ""
  /\ currentBlockHeight filledState = Some (Num 800000)
  /\ 0 < 800000
  /\ exists z,
       calculatedBlock
         (fst (calculateBlockFromDate (fun _ => Num 0) 1700000000000
                 filledState))
       = Some (Num z)
       /\ 0 <= z.
Proof.
  split; [discriminate | split; [discriminate | ]].
  split; [reflexivity | split; [lia | ]].
  apply (calculateBlockFromDate_stores_nonneg
           (fun _ => Num 0) 1700000000000 filledState 800000 0);
    [discriminate | discriminate | reflexivity | lia | reflexivity].
Defined.

Lemma calculateBlockFromDate_refused_iff_witness :
  currentBlockHeight loadedState <> Some (Num 0)
  /\ (calculateBlockFromDate (fun _ => NaN) 1700000000000 loadedState
      = (loadedState,
         [EToast (missingInputToast "Please enter both date and time")])
      <->
      (dateInput loadedState = "" \/ timeInput loadedState = ""
       \/ currentBlockHeight loadedState = None
       \/ currentBlockHeight loadedState = Some NaN)).
Proof.
  split; [discriminate | ].
  apply (calculateBlockFromDate_refused_iff
           (fun _ => NaN) 1700000000000 loadedState).
  discriminate.
Defined.

Lemma calculateDateFromBlock_refused_iff_witness :
  currentBlockHeight initialState <> Some (Num 0)
  /\ (calculateDateFromBlock (fun _ => NaN) (fun _ => "Invalid Date")
        1700000000000 initialState
      = (initialState,
         [EToast (missingInputToast "Please enter a block height")])
      <->
      (blockInput initialState = ""
       \/ currentBlockHeight initialState = None
       \/ currentBlockHeight initialState = Some NaN)).
Proof.
  split; [discriminate | ].
  apply (calculateDateFromBlock_refused_iff
           (fun _ => NaN) (fun _ => "Invalid Date")
           1700000000000 initialState).
  discriminate.
Defined.

(** ** More on the tip-height fetch and the network switch *)

(** X13.  No response is matched against the network it was requested
    for: after a switch of network, when two outstanding fetches settle one
    after the other, the stored tip height is the one of the last that
    resolved; if neither resolved it is the one from before.  The network
    shown is the one switched to. *)
Theorem fetch_last_resolved_wins
  (checked : bool) (o1 o2 : FetchOutcome) (s : State) :
  let s' :=
    fst ((changeNetwork checked ;;
          fetchCurrentBlock_settle o1 ;;
          fetchCurrentBlock_settle o2) s) in
  switchChecked s' = checked
  /\ currentBlockHeight s'
     = match o2, o1 with
       | Resolved _ h2, _ => Some h2
       | _, Resolved _ h1 => Some h1
       | _, _ => currentBlockHeight s
       end.
Proof.
  destruct s as [n c l d t cb b cd].
  destruct checked, n, o1, o2; split; reflexivity.
Qed.

(** X14.  Reporting a switch position selects that network and keeps the
    tip height of the network selected before.  If the position is the one
    already shown nothing else happens; otherwise the loading flag is
    raised and exactly one request goes out, to the tip-height endpoint of
    the newly selected network. *)
Theorem changeNetwork_requests_new_tip (checked : bool) (s : State) :
  let r := changeNetwork checked s in
  switchChecked (fst r) = checked
  /\ currentBlockHeight (fst r) = currentBlockHeight s
  /\ snd r
     = (if Bool.eqb checked (switchChecked s) then []
        else if checked
             then [EFetch "https://mempool.space/signet/api/blocks/tip/height"]
             else [EFetch "https://mempool.space/api/blocks/tip/height"])
  /\ loading (fst r)
     = (if Bool.eqb checked (switchChecked s) then loading s else true).
Proof.
  destruct s as [n c l d t cb b cd].
  destruct checked, n; repeat split.
Qed.

(** X15.  Neither a change of network nor a settling fetch touches the two
    forms: the typed inputs and the results computed earlier stay as they
    were, also when the tip height they were computed from is replaced. *)
Theorem network_and_fetch_keep_forms
  (checked : bool) (o : FetchOutcome) (s : State) :
  let s' := fst ((changeNetwork checked ;; fetchCurrentBlock_settle o) s) in
  dateInput s' = dateInput s
  /\ timeInput s' = timeInput s
  /\ calculatedBlock s' = calculatedBlock s
  /\ blockInput s' = blockInput s
  /\ calculatedDate s' = calculatedDate s.
Proof.
  destruct s as [n c l d t cb b cd].
  destruct checked, n, o; repeat split.
Qed.
